(** * The release driver [bin/publish.py]

    The program is a straight-line Python script of four statements:

      shutil.rmtree('dist', ignore_errors=True)
      os.system('tsc')
      shutil.copyfile('package.json', 'dist/package.json')
      os.system(' && '.join(['cd dist/', 'npm publish --access public']))

    Everything it does is an effect on the file system or the start of an
    external program.  The embedding therefore consists of
      - a file system: a tree of files and directories, a directory carrying
        the write bit that unlink, rmdir and file creation consult;
      - a monad of state and exceptions for the interpreter, the state being
        the file system, the working directory of the driver process and the
        log of library calls and started programs;
      - the three library functions the script calls (shutil.rmtree,
        shutil.copyfile, os.system) with the small part of the shell that
        [os.system] needs: command lists joined by [&&], the builtin [cd],
        and the start of an external program;
      - the external programs themselves ([tsc], [npm]), which are not part
        of the repository: they are a Section variable [exec]. *)

From Stdlib Require Import List String Ascii Strings.Byte ZArith Bool Lia.
Import ListNotations.
Open Scope string_scope.
Open Scope list_scope.

(** ** File system *)

Module FS.

(** A path is the list of its components, from the root. *)
Definition path := list string.

#[warnings="-register-all"] Inductive node : Type :=
| File (data : list byte)
| Dir (writable : bool) (entries : list (string * node)).

(** The exceptions of the interpreter that the library calls can raise. *)
Inductive exn : Type :=
| FileNotFoundError
| NotADirectoryError
| IsADirectoryError
| PermissionError
| DirectoryNotEmpty
| SameFileError.

Fixpoint find (name : string) (es : list (string * node)) : option node :=
  match es with
  | [] => None
  | (k, n) :: rest => if String.eqb name k then Some n else find name rest
  end.

Fixpoint remove (name : string) (es : list (string * node))
  : list (string * node) :=
  match es with
  | [] => []
  | (k, n) :: rest =>
      if String.eqb name k then remove name rest else (k, n) :: remove name rest
  end.

(** Bind [name] to [v] in a directory listing, or unbind it. *)
Definition set_entry (name : string) (v : option node)
    (es : list (string * node)) : list (string * node) :=
  match v with
  | Some n => (name, n) :: remove name es
  | None => remove name es
  end.

(** Path resolution as the kernel does it: every component but the last
    must name a directory. *)
Fixpoint walk (p : path) (n : node) : exn + node :=
  match p with
  | [] => inr n
  | c :: p' =>
      match n with
      | File _ => inl NotADirectoryError
      | Dir _ es =>
          match find c es with
          | None => inl FileNotFoundError
          | Some n' => walk p' n'
          end
      end
  end.

(** Replace (or delete) the node at [p]; the tree is left as it is when the
    parent of [p] is not an existing directory. *)
Fixpoint put (p : path) (v : option node) (n : node) : node :=
  match p with
  | [] => match v with Some n' => n' | None => n end
  | c :: p' =>
      match n with
      | File _ => n
      | Dir w es =>
          match p' with
          | [] => Dir w (set_entry c v es)
          | _ :: _ =>
              match find c es with
              | Some ch => Dir w (set_entry c (Some (put p' v ch)) es)
              | None => n
              end
          end
      end
  end.

Definition is_dir (p : path) (root : node) : bool :=
  match walk p root with
  | inr (Dir _ _) => true
  | _ => false
  end.

Definition is_file (p : path) (root : node) : bool :=
  match walk p root with
  | inr (File _) => true
  | _ => false
  end.

Definition exists_at (p : path) (root : node) : bool :=
  match walk p root with
  | inr _ => true
  | inl _ => false
  end.

(** Content of the regular file at [p], if there is one. *)
Definition file_at (p : path) (root : node) : option (list byte) :=
  match walk p root with
  | inr (File d) => Some d
  | _ => None
  end.

(** Write bit of the directory at [p]. *)
Definition dir_writable (p : path) (root : node) : bool :=
  match walk p root with
  | inr (Dir w _) => w
  | _ => false
  end.

(** [open(p, 'rb').read()].  The tree has regular files and directories
    only, and a file has no mode of its own: a source that may not be
    read, a link or a named pipe are not among its states. *)
Definition read_file (p : path) (root : node) : exn + list byte :=
  match walk p root with
  | inl e => inl e
  | inr (Dir _ _) => inl IsADirectoryError
  | inr (File d) => inr d
  end.

(** [open(p, 'wb')] followed by the write of [d]: an existing regular file
    is truncated, a missing one is created when its directory may be
    written.  An existing file that may not be written is not among the
    states of the tree; so the errors below are errors of the library, but
    not all of them. *)
Definition write_file (p : path) (d : list byte) (root : node) : exn + node :=
  match walk (removelast p) root with
  | inl e => inl e
  | inr (File _) => inl NotADirectoryError
  | inr (Dir w es) =>
      match p with
      | [] => inl IsADirectoryError
      | _ :: _ =>
          match find (last p EmptyString) es with
          | Some (Dir _ _) => inl IsADirectoryError
          | Some (File _) => inr (put p (Some (File d)) root)
          | None =>
              if w then inr (put p (Some (File d)) root)
              else inl PermissionError
          end
      end
  end.

(** [rmdir] of a node whose parent directory has write bit [w]. *)
Definition rmdir_check (w : bool) (n : node) : option exn :=
  match n with
  | File _ => Some NotADirectoryError
  | Dir _ es =>
      if negb w then Some PermissionError
      else match es with
           | [] => None
           | _ :: _ => Some DirectoryNotEmpty
           end
  end.

(** Whether the error handler of [rmtree] has raised: with
    [ignore_errors] it never does. *)
Definition stop (ignore_errors : bool) (errs : list exn) : bool :=
  match errs with
  | [] => false
  | _ :: _ => negb ignore_errors
  end.

(** The recursion of [shutil.rmtree] below its argument
    ([_rmtree_safe_fd]): scan the directory, descend into the
    subdirectories and [rmdir] them, [unlink] the rest.  Each failure goes
    to the error handler; the result is what is left of the node and the
    errors the handler saw, in order.  Without [ignore_errors] the first
    error is raised, so the scan stops there. *)
Fixpoint rm_contents (ignore_errors : bool) (n : node) {struct n}
  : node * list exn :=
  match n with
  | File d => (File d, [NotADirectoryError])
  | Dir w es =>
      let fix scan (es : list (string * node))
        : list (string * node) * list exn :=
        match es with
        | [] => ([], [])
        | (name, c) :: rest =>
            let '(kept, errs) :=
              match c with
              | File _ =>
                  if w then ([], []) else ([(name, c)], [PermissionError])
              | Dir _ _ =>
                  let '(c', e) := rm_contents ignore_errors c in
                  if stop ignore_errors e then ([(name, c')], e)
                  else match rmdir_check w c' with
                       | None => ([], e)
                       | Some x => ([(name, c')], e ++ [x])
                       end
              end in
            if stop ignore_errors errs then (kept ++ rest, errs)
            else let '(rest', errs') := scan rest in
                 (kept ++ rest', errs ++ errs')
        end in
      let '(es', errs) := scan es in (Dir w es', errs)
  end.

(** [shutil.rmtree] on the node at [p]: the tree that is left and the
    errors handed to the error handler. *)
Definition rmtree_at (ignore_errors : bool) (p : path) (root : node)
  : node * list exn :=
  match walk p root with
  | inl e => (root, [e])
  | inr n =>
      let '(n', errs) := rm_contents ignore_errors n in
      if stop ignore_errors errs then (put p (Some n') root, errs)
      else match rmdir_check (dir_writable (removelast p) root) n' with
           | None => (put p None root, errs)
           | Some x => (put p (Some n') root, errs ++ [x])
           end
  end.

End FS.

(** ** Strings: what Python and the shell do with the script's literals *)

Module Str.

(** [sep.join(l)] *)
Fixpoint join (sep : string) (l : list string) : string :=
  match l with
  | [] => EmptyString
  | [x] => x
  | x :: rest => x ++ sep ++ join sep rest
  end.

(** The pieces of [s] between the occurrences of [sep]. *)
Fixpoint split_char (sep : ascii) (s : string) : list string :=
  match s with
  | EmptyString => [EmptyString]
  | String c s' =>
      if Ascii.eqb c sep then EmptyString :: split_char sep s'
      else match split_char sep s' with
           | [] => [String c EmptyString]
           | piece :: pieces => String c piece :: pieces
           end
  end.

(** The non-empty pieces: the words of a command line, the components of
    a path. *)
Definition fields (sep : ascii) (s : string) : list string :=
  filter (fun piece => negb (String.eqb piece EmptyString)) (split_char sep s).

Definition is_absolute (s : string) : bool :=
  match s with
  | String c _ => Ascii.eqb c "/"
  | EmptyString => false
  end.

(** A path name of the program, seen from the working directory [cwd]. *)
Definition resolve (cwd : FS.path) (s : string) : FS.path :=
  if is_absolute s then fields "/" s else cwd ++ fields "/" s.

Fixpoint path_eqb (p q : FS.path) : bool :=
  match p, q with
  | [], [] => true
  | a :: p', b :: q' => String.eqb a b && path_eqb p' q'
  | _, _ => false
  end.

(** A command line as the shell reads it: words separated by blanks, the
    word [&&] separating the commands of an AND list.  This is the shell
    on the command lines of the script, whose words are plain; quoting,
    expansions and operators written without blanks are not read. *)
Fixpoint and_list (ws : list string) : list (list string) :=
  match ws with
  | [] => [[]]
  | w :: ws' =>
      if String.eqb w "&&" then [] :: and_list ws'
      else match and_list ws' with
           | [] => [[w]]
           | c :: cs => (w :: c) :: cs
           end
  end.

Definition parse (cmd : string) : list (list string) :=
  and_list (fields " " cmd).

End Str.

(** ** The interpreter state and its monad *)

Import FS.

Inductive event : Type :=
| Call_rmtree (p : string)
| Call_system (cmd : string)
| Call_copyfile (src dst : string)
| Exec (argv : list string) (dir : path).

(** [fs] is the file system, [cwd] the working directory of the process,
    [log] the library calls made and the external programs started, oldest
    first. *)
Record world : Type := World {
  fs : node;
  cwd : path;
  log : list event
}.

Definition logged (e : event) (w : world) : world :=
  {| fs := fs w; cwd := cwd w; log := log w ++ [e] |}.

Definition with_fs (f : node) (w : world) : world :=
  {| fs := f; cwd := cwd w; log := log w |}.

Definition with_cwd (d : path) (w : world) : world :=
  {| fs := fs w; cwd := d; log := log w |}.

Inductive outcome (A : Type) : Type :=
| Ok (a : A)
| Raise (e : exn).
Arguments Ok {A} a.
Arguments Raise {A} e.

Definition M (A : Type) : Type := world -> outcome A * world.

Definition ret {A} (a : A) : M A := fun w => (Ok a, w).

Definition bind {A B} (m : M A) (k : A -> M B) : M B :=
  fun w =>
    match m w with
    | (Ok a, w') => k a w'
    | (Raise e, w') => (Raise e, w')
    end.

Declare Scope py_scope.
Delimit Scope py_scope with py.
Notation "x <- m ;; k" := (bind m (fun x => k))
  (at level 100, m at next level, right associativity) : py_scope.
Notation "m ;; k" := (bind m (fun _ => k))
  (at level 100, right associativity) : py_scope.

(** ** The library calls of the script *)

Section Driver.

(** The external programs: [exec argv dir f] is the file system left by the
    program [argv] started in directory [dir] on file system [f], and its
    exit status (127 when the shell finds no such program). *)
Variable exec : list string -> path -> node -> node * Z.

(** [shutil.rmtree(p, ignore_errors)].  The error handler raises the first
    error unless [ignore_errors] is set. *)
Definition rmtree (p : string) (ignore_errors : bool) : M unit :=
  fun w =>
    let w1 := logged (Call_rmtree p) w in
    let '(f, errs) := rmtree_at ignore_errors (Str.resolve (cwd w) p) (fs w) in
    match errs with
    | e :: _ =>
        if ignore_errors then (Ok tt, with_fs f w1)
        else (Raise e, with_fs f w1)
    | [] => (Ok tt, with_fs f w1)
    end.

(** [shutil.copyfile(src, dst)]: refuse to copy a file onto itself, open
    [src] for reading, open [dst] for writing, copy, return [dst].  Without
    links in the tree, two names are one file only when they are one path;
    the refusal of named pipes has no state to apply to. *)
Definition copyfile (src dst : string) : M string :=
  fun w =>
    let w1 := logged (Call_copyfile src dst) w in
    let ps := Str.resolve (cwd w) src in
    let pd := Str.resolve (cwd w) dst in
    if Str.path_eqb ps pd && exists_at ps (fs w) then (Raise SameFileError, w1)
    else match read_file ps (fs w) with
         | inl e => (Raise e, w1)
         | inr d =>
             match write_file pd d (fs w) with
             | inl e => (Raise e, w1)
             | inr f => (Ok dst, with_fs f w1)
             end
         end.

(** One command of the shell, run in the shell process [w]: the builtin
    [cd] changes the working directory of the shell, or fails with a
    status that is not 0 (2, as [dash] has it) when its operand is not a
    directory; any other command starts an external program in the working
    directory of the shell. *)
Definition simple_command (argv : list string) (w : world) : Z * world :=
  match argv with
  | [] => (0%Z, w)
  | prog :: args =>
      if String.eqb prog "cd" then
        match args with
        | [d] =>
            let target := Str.resolve (cwd w) d in
            if is_dir target (fs w) then (0%Z, with_cwd target w)
            else (2%Z, w)
        | _ => (2%Z, w)
        end
      else
        let '(f, status) := exec argv (cwd w) (fs w) in
        (status, with_fs f (logged (Exec argv (cwd w)) w))
  end.

(** [c1 && c2 && ...]: a command runs only if the one before it exited
    with status 0; the status of the list is that of the last command
    run. *)
Fixpoint and_chain (cmds : list (list string)) (w : world) : Z * world :=
  match cmds with
  | [] => (0%Z, w)
  | [c] => simple_command c w
  | c :: rest =>
      let '(status, w') := simple_command c w in
      if Z.eqb status 0 then and_chain rest w' else (status, w')
  end.

(** [os.system(cmd)]: a child shell runs [cmd].  The child starts in the
    working directory of the caller and shares its file system; its own
    working directory ends with it.  The result is the wait status, the
    exit status in the high byte. *)
Definition os_system (cmd : string) : M Z :=
  fun w =>
    let '(status, child) := and_chain (Str.parse cmd) (logged (Call_system cmd) w) in
    (Ok (Z.shiftl status 8), with_cwd (cwd w) child).

(** ** The script *)

Open Scope py_scope.

Definition main : M unit :=
  rmtree "dist" true ;;
  os_system "tsc" ;;
  copyfile "package.json" "dist/package.json" ;;
  os_system (Str.join " && " [
    "cd dist/";
    "npm publish --access public"
  ]) ;;
  ret tt.

Close Scope py_scope.

(** The states between the statements. *)
Definition after_remove (w : world) : world := snd (rmtree "dist" true w).
Definition after_build (w : world) : world :=
  snd (os_system "tsc" (after_remove w)).
Definition copy_step (w : world) : outcome string * world :=
  copyfile "package.json" "dist/package.json" (after_build w).

End Driver.

(** ** Names for what the script mentions *)

Definition tsc_argv : list string := ["tsc"].
Definition publish_argv : list string := ["npm"; "publish"; "--access"; "public"].

(** The command line that the last statement hands to [os.system]. *)
Definition publish_cmd : string :=
  Str.join " && " ["cd dist/"; "npm publish --access public"].

(** The path names of the script, resolved in the working directory of
    the driver. *)
Definition dist (w : world) : path := cwd w ++ ["dist"].
Definition manifest (w : world) : path := cwd w ++ ["package.json"].
Definition manifest_copy (w : world) : path := cwd w ++ ["dist"; "package.json"].

Definition copy_call : event := Call_copyfile "package.json" "dist/package.json".

(** The condition under which the copy goes through, on the state in
    which it starts. *)
Definition copy_possible (w : world) : bool :=
  is_file (manifest w) (fs w)
  && is_dir (dist w) (fs w)
  && (is_file (manifest_copy w) (fs w)
      || negb (exists_at (manifest_copy w) (fs w)) && dir_writable (dist w) (fs w)).

(** The events of the first two statements, and of the last. *)
Definition build_events (w : world) : list event :=
  [Call_rmtree "dist"; Call_system "tsc"; Exec tsc_argv (cwd w)].
Definition publish_events (w : world) : list event :=
  [Call_system publish_cmd; Exec publish_argv (dist w)].

(** The events that one run adds to the log. *)
Definition run_events (exec : list string -> path -> node -> node * Z)
    (w : world) : list event :=
  skipn (List.length (log w)) (log (snd (main exec w))).

(** An environment assumption: the program [argv], started in [dir],
    leaves the regular file at [p] (or its absence) as it is. *)
Definition keeps (exec : list string -> path -> node -> node * Z)
    (argv : list string) (dir p : path) : Prop :=
  forall f, file_at p (fst (exec argv dir f)) = file_at p f.

(** The build tool with its exit status replaced by [c]. *)
Definition with_build_status (exec : list string -> path -> node -> node * Z)
    (c : Z) : list string -> path -> node -> node * Z :=
  fun argv dir f =>
    if Str.path_eqb argv tsc_argv then (fst (exec argv dir f), c)
    else exec argv dir f.

(** ** Further vocabulary, for the properties beyond the claims *)



Fixpoint uniq (l : list string) : bool :=
  match l with
  | [] => true
  | x :: r => negb (existsb (String.eqb x) r) && uniq r
  end.

(** No directory of the tree has two entries of one name. *)
Fixpoint names_unique (n : node) : bool :=
  match n with
  | File _ => true
  | Dir _ es =>
      uniq (map fst es) && forallb (fun e => names_unique (snd e)) es
  end.

(** A directory without entries: what [rmdir] accepts. *)
Definition emptied (n : node) : bool :=
  match n with
  | Dir _ [] => true
  | _ => false
  end.

(** The scan of [rm_contents] over the entries of a directory with write
    bit [w], and its step for one entry, under names of their own. *)
Definition rm_entries (ign w : bool) (es : list (string * node))
  : list (string * node) * list exn :=
  match rm_contents ign (Dir w es) with
  | (Dir _ es', errs) => (es', errs)
  | (File _, errs) => ([], errs)
  end.

Definition rm_entry (ign w : bool) (name : string) (c : node)
  : list (string * node) * list exn :=
  match c with
  | File _ => if w then ([], []) else ([(name, c)], [PermissionError])
  | Dir _ _ =>
      let '(c', e) := rm_contents ign c in
      if stop ign e then ([(name, c')], e)
      else match rmdir_check w c' with
           | None => ([], e)
           | Some x => ([(name, c')], e ++ [x])
           end
  end.

(** The publish command with its exit status replaced by [c]. *)
Definition with_publish_status (exec : list string -> path -> node -> node * Z)
    (c : Z) : list string -> path -> node -> node * Z :=
  fun argv dir f =>
    if Str.path_eqb argv publish_argv then (fst (exec argv dir f), c)
    else exec argv dir f.



(** ** Sample projects and tools *)

Module Samples.

Definition dq : string := String (ascii_of_nat 34) EmptyString.

(** The manifest of the example run: an object with the two members name,
    of value x, and version, of value 1.0.0. *)
Definition manifest_text : string :=
  ("{" ++ dq ++ "name" ++ dq ++ ":" ++ dq ++ "x" ++ dq ++ ","
       ++ dq ++ "version" ++ dq ++ ":" ++ dq ++ "1.0.0" ++ dq ++ "}")%string.

Definition manifest_bytes : list byte := list_byte_of_string manifest_text.

Definition sources : node :=
  Dir true [("index.ts", File (list_byte_of_string "export const x = 1;"))].

Definition built : node :=
  Dir true [("index.js", File (list_byte_of_string "exports.x = 1;"))].

(** A project directory [/proj] with a manifest and sources, not built. *)
Definition project : world :=
  {| fs := Dir true [("proj", Dir true [("package.json", File manifest_bytes);
                                        ("src", sources)])];
     cwd := ["proj"];
     log := [] |}.

(** The same without a manifest. *)
Definition project_no_manifest : world :=
  {| fs := Dir true [("proj", Dir true [("src", sources)])];
     cwd := ["proj"];
     log := [] |}.

(** A project whose former [dist] has lost its write bit. *)
Definition project_locked : world :=
  {| fs := Dir true [("proj", Dir true [("package.json", File manifest_bytes);
                                        ("src", sources);
                                        ("dist", Dir false [("index.js", File [])])])];
     cwd := ["proj"];
     log := [] |}.

(** Tools that do what is expected of them: [tsc] writes [dist], [npm
    publish] reads; nothing else is installed. *)
Definition tools (argv : list string) (dir : path) (f : node) : node * Z :=
  if Str.path_eqb argv tsc_argv then (put (dir ++ ["dist"]) (Some built) f, 0%Z)
  else if Str.path_eqb argv publish_argv then (f, 0%Z)
  else (f, 127%Z).

(** A build whose output has a directory where the manifest is to go. *)
Definition tools_odd (argv : list string) (dir : path) (f : node) : node * Z :=
  if Str.path_eqb argv tsc_argv then
    (put (dir ++ ["dist"]) (Some (Dir true [("package.json", built)])) f, 0%Z)
  else if Str.path_eqb argv publish_argv then (f, 0%Z)
  else (f, 127%Z).


(** A project built before: a former [dist] with a subdirectory and an
    older copy of the manifest, all of it writable. *)
Definition project_stale : world :=
  {| fs := Dir true
       [("proj", Dir true
          [("package.json", File manifest_bytes);
           ("src", sources);
           ("dist", Dir true
              [("index.js", File (list_byte_of_string "exports.x = 0;"));
               ("lib", Dir true [("util.js", File [])]);
               ("package.json", File (list_byte_of_string "{}"))])])];
     cwd := ["proj"];
     log := [] |}.

End Samples.

(** ** Facts about the file system *)

Module FSFacts.

Lemma find_remove_same name es : find name (remove name es) = None.
Proof.
  induction es as [| [k n] es IH]; simpl; auto.
  destruct (String.eqb name k) eqn:E; simpl; auto.
  now rewrite E.
Qed.

Lemma find_remove_other name other es :
  String.eqb other name = false ->
  find other (remove name es) = find other es.
Proof.
  intros Hne. induction es as [| [k n] es IH]; simpl; auto.
  destruct (String.eqb name k) eqn:E.
  - apply String.eqb_eq in E. subst k. now rewrite Hne.
  - simpl. now rewrite IH.
Qed.

Lemma find_set_entry_same name v es : find name (set_entry name v es) = v.
Proof.
  destruct v as [n |]; simpl.
  - now rewrite String.eqb_refl.
  - apply find_remove_same.
Qed.

Lemma find_set_entry_other name other v es :
  String.eqb other name = false ->
  find other (set_entry name v es) = find other es.
Proof.
  intros Hne. destruct v as [n |]; simpl.
  - rewrite Hne. now apply find_remove_other.
  - now apply find_remove_other.
Qed.

Lemma walk_app a b n :
  walk (a ++ b) n =
  match walk a n with
  | inr m => walk b m
  | inl e => inl e
  end.
Proof.
  revert n. induction a as [| c a IH]; intros n; simpl; auto.
  destruct n as [d | w es]; auto.
  destruct (find c es); auto.
Qed.

Lemma put_below c p v w es :
  p <> [] ->
  put (c :: p) v (Dir w es) =
  match find c es with
  | Some ch => Dir w (set_entry c (Some (put p v ch)) es)
  | None => Dir w es
  end.
Proof. destruct p; [congruence | reflexivity]. Qed.

Lemma snoc_not_nil {A} (a b : list A) (x : A) : a ++ x :: b <> [].
Proof. destruct a; discriminate. Qed.

(** Writing below one name of a directory is not seen through another
    name of it. *)
Lemma walk_put_diverge a c1 r1 c2 r2 v n :
  String.eqb c1 c2 = false ->
  walk (a ++ c1 :: r1) (put (a ++ c2 :: r2) v n) = walk (a ++ c1 :: r1) n.
Proof.
  intros Hne. revert n. induction a as [| c a IH]; intros n.
  - cbn [app]. destruct n as [d | w es]; [destruct r2; reflexivity |].
    destruct r2 as [| c3 r2]; cbn [put].
    + cbn [walk]. now rewrite find_set_entry_other.
    + destruct (find c2 es) eqn:E; [| reflexivity].
      cbn [walk]. now rewrite find_set_entry_other.
  - change ((c :: a) ++ c1 :: r1) with (c :: (a ++ c1 :: r1)).
    change ((c :: a) ++ c2 :: r2) with (c :: (a ++ c2 :: r2)).
    destruct n as [d | w es]; [reflexivity |].
    rewrite put_below by apply snoc_not_nil.
    destruct (find c es) as [ch |] eqn:E; [| reflexivity].
    cbn [walk]. rewrite find_set_entry_same, E. apply IH.
Qed.

(** The directory that receives the entry is the same directory, with
    the entry set. *)
Lemma walk_put_parent a c v n w es :
  walk a n = inr (Dir w es) ->
  walk a (put (a ++ [c]) v n) = inr (Dir w (set_entry c v es)).
Proof.
  revert n. induction a as [| x a IH]; intros n H.
  - cbn [walk] in H. inversion H. reflexivity.
  - cbn [walk] in H. destruct n as [d | w' es']; [discriminate |].
    destruct (find x es') as [ch |] eqn:E; [| discriminate].
    change ((x :: a) ++ [c]) with (x :: (a ++ [c])).
    rewrite put_below by apply snoc_not_nil.
    rewrite E. cbn [walk]. rewrite find_set_entry_same. now apply IH.
Qed.

Lemma walk_put_child a c v n w es :
  walk a n = inr (Dir w es) ->
  walk (a ++ [c]) (put (a ++ [c]) (Some v) n) = inr v.
Proof.
  intros H. rewrite walk_app, (walk_put_parent _ _ _ _ _ _ H).
  cbn [walk]. now rewrite find_set_entry_same.
Qed.

Lemma removelast_snoc {A} (a : list A) (x : A) : removelast (a ++ [x]) = a.
Proof. apply removelast_last. Qed.

Lemma last_snoc {A} (a : list A) (x d : A) : last (a ++ [x]) d = x.
Proof. apply last_last. Qed.

(** What [rmtree] leaves is the tree itself or the tree with the node at
    [p] replaced or deleted. *)
Lemma rmtree_at_shape ign p root :
  fst (rmtree_at ign p root) = root \/
  exists v, fst (rmtree_at ign p root) = put p v root.
Proof.
  unfold rmtree_at. destruct (walk p root) as [e | n]; [now left |].
  destruct (rm_contents ign n) as [n' errs].
  destruct (stop ign errs); [right; exists (Some n'); reflexivity |].
  destruct (rmdir_check _ n'); right;
    [exists (Some n') | exists None]; reflexivity.
Qed.

End FSFacts.

(** ** The steps of the script, one by one *)

Import FSFacts.


Lemma manifest_copy_in_dist w : manifest_copy w = dist w ++ ["package.json"].
Proof. unfold manifest_copy, dist. now rewrite <- app_assoc. Qed.

Lemma path_eqb_manifest_copy a :
  Str.path_eqb (a ++ ["package.json"]) (a ++ ["dist"; "package.json"]) = false.
Proof.
  induction a as [| c a IH]; [reflexivity |].
  cbn [app Str.path_eqb]. now rewrite IH, andb_false_r.
Qed.

Lemma write_file_snoc q c d root :
  write_file (q ++ [c]) d root =
  match walk q root with
  | inl e => inl e
  | inr (File _) => inl NotADirectoryError
  | inr (Dir w es) =>
      match find c es with
      | Some (Dir _ _) => inl IsADirectoryError
      | Some (File _) => inr (put (q ++ [c]) (Some (File d)) root)
      | None =>
          if w then inr (put (q ++ [c]) (Some (File d)) root)
          else inl PermissionError
      end
  end.
Proof.
  unfold write_file. rewrite removelast_snoc, last_snoc.
  destruct (walk q root) as [e | [x | w es]]; try reflexivity.
  destruct (q ++ [c]) eqn:E; [now destruct q | reflexivity].
Qed.

Section Steps.

Variable exec : list string -> path -> node -> node * Z.


Lemma rmtree_dist w :
  rmtree "dist" true w =
  (Ok tt, {| fs := fst (rmtree_at true (dist w) (fs w));
             cwd := cwd w;
             log := log w ++ [Call_rmtree "dist"] |}).
Proof.
  unfold rmtree. change (Str.resolve (cwd w) "dist") with (dist w).
  destruct (rmtree_at true (dist w) (fs w)) as [f errs].
  destruct errs; reflexivity.
Qed.

Lemma os_system_returns cmd w :
  exists status, fst (os_system exec cmd w) = Ok status.
Proof.
  unfold os_system.
  destruct (and_chain exec (Str.parse cmd) (logged (Call_system cmd) w))
    as [status child].
  now exists (Z.shiftl status 8).
Qed.

Lemma os_system_tsc w :
  os_system exec "tsc" w =
  (Ok (Z.shiftl (snd (exec tsc_argv (cwd w) (fs w))) 8),
   {| fs := fst (exec tsc_argv (cwd w) (fs w));
      cwd := cwd w;
      log := log w ++ [Call_system "tsc"; Exec tsc_argv (cwd w)] |}).
Proof.
  unfold os_system. change (Str.parse "tsc") with [tsc_argv].
  cbn [and_chain]. unfold simple_command, tsc_argv.
  change (String.eqb "tsc" "cd") with false. cbn iota.
  cbn [logged fs cwd log].
  destruct (exec ["tsc"] (cwd w) (fs w)) as [f status].
  unfold with_cwd, with_fs, logged. cbn [fs cwd log fst snd].
  now rewrite <- app_assoc.
Qed.

Lemma os_system_publish_entered w :
  is_dir (dist w) (fs w) = true ->
  os_system exec publish_cmd w =
  (Ok (Z.shiftl (snd (exec publish_argv (dist w) (fs w))) 8),
   {| fs := fst (exec publish_argv (dist w) (fs w));
      cwd := cwd w;
      log := log w ++ [Call_system publish_cmd; Exec publish_argv (dist w)] |}).
Proof.
  intros Hdir. unfold os_system.
  change (Str.parse publish_cmd) with [["cd"; "dist/"]; publish_argv].
  cbn [and_chain]. unfold simple_command at 1.
  change (String.eqb "cd" "cd") with true. cbn iota.
  change (Str.resolve (cwd (logged (Call_system publish_cmd) w)) "dist/")
    with (dist w).
  change (fs (logged (Call_system publish_cmd) w)) with (fs w).
  rewrite Hdir. change (Z.eqb 0 0) with true. cbn iota.
  unfold simple_command, publish_argv.
  change (String.eqb "npm" "cd") with false. cbn iota.
  cbn [with_cwd logged fs cwd log].
  destruct (exec ["npm"; "publish"; "--access"; "public"] (dist w) (fs w))
    as [f status].
  unfold with_cwd, with_fs, logged. cbn [fs cwd log fst snd].
  now rewrite <- app_assoc.
Qed.

Lemma os_system_publish_refused w :
  is_dir (dist w) (fs w) = false ->
  os_system exec publish_cmd w =
  (Ok (Z.shiftl 2 8), logged (Call_system publish_cmd) w).
Proof.
  intros Hdir. unfold os_system.
  change (Str.parse publish_cmd) with [["cd"; "dist/"]; publish_argv].
  cbn [and_chain]. unfold simple_command at 1.
  change (String.eqb "cd" "cd") with true. cbn iota.
  change (Str.resolve (cwd (logged (Call_system publish_cmd) w)) "dist/")
    with (dist w).
  change (fs (logged (Call_system publish_cmd) w)) with (fs w).
  rewrite Hdir. change (Z.eqb 2 0) with false. cbn iota.
  reflexivity.
Qed.

End Steps.

(** ** The copy step *)

Lemma copyfile_manifest w :
  copyfile "package.json" "dist/package.json" w =
  match read_file (manifest w) (fs w) with
  | inl e => (Raise e, logged copy_call w)
  | inr d =>
      match write_file (manifest_copy w) d (fs w) with
      | inl e => (Raise e, logged copy_call w)
      | inr f => (Ok "dist/package.json", with_fs f (logged copy_call w))
      end
  end.
Proof.
  unfold copyfile.
  change (Str.resolve (cwd w) "package.json") with (manifest w).
  change (Str.resolve (cwd w) "dist/package.json") with (manifest_copy w).
  unfold manifest, manifest_copy at 1.
  now rewrite path_eqb_manifest_copy.
Qed.


Lemma copyfile_outcome w :
  if copy_possible w then
    exists d,
      file_at (manifest w) (fs w) = Some d /\
      copyfile "package.json" "dist/package.json" w =
      (Ok "dist/package.json",
       with_fs (put (manifest_copy w) (Some (File d)) (fs w)) (logged copy_call w))
  else
    exists e,
      copyfile "package.json" "dist/package.json" w = (Raise e, logged copy_call w).
Proof.
  rewrite copyfile_manifest. unfold copy_possible.
  unfold is_file at 1, read_file, file_at.
  destruct (walk (manifest w) (fs w)) as [e | [d | wm em]];
    cbn [andb]; try (eexists; reflexivity).
  rewrite manifest_copy_in_dist, write_file_snoc.
  unfold is_dir, is_file, exists_at, dir_writable. rewrite walk_app.
  destruct (walk (dist w) (fs w)) as [e | [x | wd es]];
    cbn [andb]; try (eexists; reflexivity).
  cbn [walk]. destruct (find "package.json" es) as [[x | wx ex] |];
    cbn [andb orb negb].
  - exists d. split; reflexivity.
  - eexists; reflexivity.
  - destruct wd; [exists d; split; reflexivity | eexists; reflexivity].
Qed.

(** What holds once the copy has returned. *)
Lemma copyfile_returned w s w3 :
  copyfile "package.json" "dist/package.json" w = (Ok s, w3) ->
  exists d,
    file_at (manifest w) (fs w) = Some d /\
    file_at (manifest w) (fs w3) = Some d /\
    file_at (manifest_copy w) (fs w3) = Some d /\
    is_dir (dist w) (fs w3) = true /\
    w3 = with_fs (put (manifest_copy w) (Some (File d)) (fs w)) (logged copy_call w).
Proof.
  intros H. pose proof (copyfile_outcome w) as O.
  destruct (copy_possible w) eqn:P.
  - destruct O as (d & Hm & Hc). rewrite Hc in H. inversion H; subst s w3.
    exists d. cbn [with_fs fs].
    unfold copy_possible in P.
    apply andb_prop in P as [P _]. apply andb_prop in P as [_ Pd].
    unfold is_dir in Pd.
    destruct (walk (dist w) (fs w)) as [e | [x | wd es]] eqn:Wd;
      try discriminate.
    repeat split; auto.
    + unfold file_at in *. unfold manifest, manifest_copy.
      change (cwd w ++ ["package.json"]) with (cwd w ++ "package.json" :: []).
      change (cwd w ++ ["dist"; "package.json"])
        with (cwd w ++ "dist" :: ["package.json"]).
      now rewrite walk_put_diverge.
    + unfold file_at. rewrite manifest_copy_in_dist.
      now rewrite (walk_put_child _ _ _ _ _ _ Wd).
    + unfold is_dir. rewrite manifest_copy_in_dist.
      now rewrite (walk_put_parent _ _ _ _ _ _ Wd).
  - destruct O as (e & Hc). rewrite Hc in H. discriminate.
Qed.

Lemma copyfile_raised w e w3 :
  copyfile "package.json" "dist/package.json" w = (Raise e, w3) ->
  w3 = logged copy_call w.
Proof.
  rewrite copyfile_manifest.
  destruct (read_file (manifest w) (fs w)) as [x | d]; [now inversion 1 |].
  destruct (write_file (manifest_copy w) d (fs w)); now inversion 1.
Qed.

(** ** The whole run *)

Section Run.

Variable exec : list string -> path -> node -> node * Z.


Lemma after_build_eq w :
  after_build exec w =
  {| fs := fst (exec tsc_argv (cwd w) (fst (rmtree_at true (dist w) (fs w))));
     cwd := cwd w;
     log := log w ++ build_events w |}.
Proof.
  unfold after_build, after_remove. rewrite rmtree_dist. cbn [snd].
  rewrite os_system_tsc. cbn [snd fs cwd log].
  now rewrite <- app_assoc.
Qed.

Lemma main_eq w :
  main exec w =
  match copy_step exec w with
  | (Ok _, w3) => (Ok tt, snd (os_system exec publish_cmd w3))
  | (Raise e, w3) => (Raise e, w3)
  end.
Proof.
  unfold main, bind, copy_step, after_build, after_remove.
  rewrite rmtree_dist. cbn [snd]. rewrite os_system_tsc. cbn [snd].
  destruct (copyfile _ _ _) as [[s | e] w3]; [| reflexivity].
  fold publish_cmd.
  destruct (os_system_returns exec publish_cmd w3) as [status Hs].
  destruct (os_system exec publish_cmd w3) as [o w4]. cbn [fst snd] in *.
  now subst o.
Qed.

(** A run that returns: the copy went through, and the publish command
    was started in [dist] on the file system the copy left. *)
Lemma run_returned w w' :
  main exec w = (Ok tt, w') ->
  exists d f,
    file_at (manifest w) (fs (after_build exec w)) = Some d /\
    file_at (manifest w) f = Some d /\
    file_at (manifest_copy w) f = Some d /\
    is_dir (dist w) f = true /\
    copy_step exec w =
      (Ok "dist/package.json", with_fs f (logged copy_call (after_build exec w))) /\
    w' = {| fs := fst (exec publish_argv (dist w) f);
            cwd := cwd w;
            log := log w ++ build_events w ++ [copy_call] ++ publish_events w |}.
Proof.
  rewrite main_eq. unfold copy_step.
  destruct (copyfile _ _ (after_build exec w)) as [[s | e] w3] eqn:C;
    [| discriminate].
  intros H. inversion H as [Hw']. clear H.
  destruct (copyfile_returned _ _ _ C) as (d & Hm & Hm3 & Hc3 & Hd3 & ->).
  assert (Hcwd : cwd (after_build exec w) = cwd w) by now rewrite after_build_eq.
  unfold manifest, manifest_copy, dist in *. rewrite Hcwd in *.
  exists d, (put (cwd w ++ ["dist"; "package.json"]) (Some (File d))
               (fs (after_build exec w))).
  cbn [with_fs fs cwd log logged] in *.
  repeat split; auto.
  - pose proof (copyfile_outcome (after_build exec w)) as O.
    destruct (copy_possible (after_build exec w)).
    + destruct O as (d' & _ & O). rewrite O in C. now inversion C.
    + destruct O as (e & O). rewrite O in C. discriminate.
  - rewrite os_system_publish_entered.
    + cbn [snd]. unfold dist, publish_events, dist.
      cbn [with_fs logged fs cwd log].
      rewrite Hcwd, after_build_eq. cbn [log]. f_equal.
      now rewrite <- !app_assoc.
    + unfold dist. cbn [with_fs logged fs cwd log]. now rewrite Hcwd.
Qed.

(** A run that raises: it is the copy that raised, and the run ends
    there. *)
Lemma run_raised w e w' :
  main exec w = (Raise e, w') ->
  copy_step exec w = (Raise e, w') /\
  w' = {| fs := fs (after_build exec w);
          cwd := cwd w;
          log := log w ++ build_events w ++ [copy_call] |}.
Proof.
  rewrite main_eq. unfold copy_step.
  destruct (copyfile _ _ (after_build exec w)) as [[s | e'] w3] eqn:C;
    [discriminate |].
  intros H. inversion H; subst e' w3. split; [reflexivity |].
  rewrite (copyfile_raised _ _ _ C). rewrite after_build_eq.
  unfold logged. cbn [fs cwd log]. now rewrite <- app_assoc.
Qed.

Lemma run_cases w :
  (exists w', main exec w = (Ok tt, w')) \/
  (exists e w', main exec w = (Raise e, w')).
Proof.
  destruct (main exec w) as [[[] | e] w']; eauto.
Qed.

End Run.


Lemma skipn_prefix {A} (l r : list A) : skipn (List.length l) (l ++ r) = r.
Proof. induction l; auto. Qed.

Lemma run_events_returned exec w w' :
  main exec w = (Ok tt, w') ->
  run_events exec w = build_events w ++ [copy_call] ++ publish_events w.
Proof.
  intros H. unfold run_events. rewrite H.
  destruct (run_returned _ _ _ H) as (d & f & _ & _ & _ & _ & _ & ->).
  apply skipn_prefix.
Qed.

Lemma run_events_raised exec w e w' :
  main exec w = (Raise e, w') ->
  run_events exec w = build_events w ++ [copy_call].
Proof.
  intros H. unfold run_events. rewrite H.
  destruct (run_raised _ _ _ _ H) as (_ & ->).
  apply skipn_prefix.
Qed.


Lemma rmtree_keeps_manifest ign a root :
  file_at (a ++ ["package.json"]) (fst (rmtree_at ign (a ++ ["dist"]) root)) =
  file_at (a ++ ["package.json"]) root.
Proof.
  destruct (rmtree_at_shape ign (a ++ ["dist"]) root) as [-> | [v ->]];
    [reflexivity |].
  unfold file_at. now rewrite walk_put_diverge.
Qed.


(** The sample tools meet the environment assumptions. *)

Module SamplesFacts.

Lemma tools_tsc_keeps a name :
  String.eqb name "dist" = false ->
  keeps Samples.tools tsc_argv a (a ++ [name]).
Proof.
  intros Hne f.
  change (fst (Samples.tools tsc_argv a f)) with (put (a ++ ["dist"]) (Some Samples.built) f).
  unfold file_at. now rewrite walk_put_diverge.
Qed.

Lemma tools_publish_keeps dir p : keeps Samples.tools publish_argv dir p.
Proof. intros f. reflexivity. Qed.

End SamplesFacts.

(** * The properties of the specification *)

Section Claims.

Variable exec : list string -> path -> node -> node * Z.

(** C1.  After a run that returns (no statement raised; in particular after
    a run in which every step succeeds) the output directory holds a file
    of the manifest's name, [package.json], whose bytes are those of the
    manifest of the project root.  The publish command is the last thing
    to touch the file system; it is expected to read the two files, which
    is the assumption [keeps]. *)
Theorem C1_manifest_copied w w' :
  main exec w = (Ok tt, w') ->
  keeps exec publish_argv (dist w) (manifest w) ->
  keeps exec publish_argv (dist w) (manifest_copy w) ->
  exists d,
    file_at (cwd w ++ ["package.json"]) (fs w') = Some d /\
    file_at (cwd w ++ ["dist"; "package.json"]) (fs w') = Some d.
Proof.
  intros Hrun Km Kc.
  destruct (run_returned _ _ _ Hrun) as (d & f & _ & Hm & Hc & _ & _ & ->).
  unfold keeps, manifest, manifest_copy in *.
  exists d. cbn [fs]. split.
  - now rewrite (Km f).
  - now rewrite (Kc f).
Qed.

(** C9.  Two runs in succession, both returning, leave the same manifest
    copy: the copy that the second run leaves in [dist] has the bytes of
    the copy that the first run left.  The external tools are expected
    not to write the manifest of the project root, and the publish command
    not to write the copy. *)
Theorem C9_copy_idempotent w w1 w2 :
  main exec w = (Ok tt, w1) ->
  main exec w1 = (Ok tt, w2) ->
  keeps exec tsc_argv (cwd w) (manifest w) ->
  keeps exec publish_argv (dist w) (manifest w) ->
  keeps exec publish_argv (dist w) (manifest_copy w) ->
  exists d,
    file_at (cwd w ++ ["dist"; "package.json"]) (fs w1) = Some d /\
    file_at (cwd w ++ ["dist"; "package.json"]) (fs w2) = Some d.
Proof.
  intros Hrun1 Hrun2 Kt Km Kc.
  destruct (run_returned _ _ _ Hrun1) as (d & f & _ & Hm & Hc & _ & _ & E1).
  destruct (run_returned _ _ _ Hrun2) as (d2 & f2 & Hb & _ & Hc2 & _ & _ & E2).
  assert (Hcwd : cwd w1 = cwd w) by now subst w1.
  unfold keeps, manifest, manifest_copy, dist in *. rewrite Hcwd in *.
  rewrite after_build_eq in Hb. cbn [fs] in Hb.
  unfold dist in Hb. rewrite Hcwd in Hb.
  rewrite (Kt _), rmtree_keeps_manifest in Hb.
  assert (H1 : file_at (cwd w ++ ["package.json"]) (fs w1) = Some d).
  { subst w1. cbn [fs]. now rewrite (Km f). }
  rewrite H1 in Hb. inversion Hb; subst d2.
  exists d. split.
  - subst w1. cbn [fs]. now rewrite (Kc f).
  - subst w2. cbn [fs]. now rewrite (Kc f2).
Qed.

(** C3.  When the manifest is missing or the output directory does not
    exist at the time of the copy, the copy raises, the run ends with that
    exception, and the run has neither called the shell with the publish
    command line nor started the publish command. *)
Theorem C3_copy_failure_halts w :
  exists_at (manifest w) (fs (after_build exec w)) = false \/
  exists_at (dist w) (fs (after_build exec w)) = false ->
  exists e w',
    copy_step exec w = (Raise e, w') /\
    main exec w = (Raise e, w') /\
    ~ In (Call_system publish_cmd) (run_events exec w) /\
    forall dir, ~ In (Exec publish_argv dir) (run_events exec w).
Proof.
  intros Hmiss.
  assert (Hcwd : cwd (after_build exec w) = cwd w) by now rewrite after_build_eq.
  assert (P : copy_possible (after_build exec w) = false).
  { unfold copy_possible, manifest, dist. rewrite Hcwd.
    unfold manifest, dist, exists_at in Hmiss. unfold is_file, is_dir.
    destruct Hmiss as [H | H].
    - destruct (walk (cwd w ++ ["package.json"]) _); [reflexivity | discriminate].
    - destruct (walk (cwd w ++ ["dist"]) _); [| discriminate].
      now rewrite andb_false_r. }
  pose proof (copyfile_outcome (after_build exec w)) as O. rewrite P in O.
  destruct O as (e & O). fold (copy_step exec w) in O.
  assert (Hrun : main exec w = (Raise e, logged copy_call (after_build exec w))).
  { rewrite main_eq, O. reflexivity. }
  exists e, (logged copy_call (after_build exec w)).
  rewrite (run_events_raised _ _ _ _ Hrun).
  repeat split; auto.
  - cbn. intros [H | [H | [H | [H | []]]]]; discriminate.
  - intros dir. cbn. intros [H | [H | [H | [H | []]]]]; discriminate.
Qed.

(** C6.  When there is no output directory, the removal step returns
    without an exception and without any effect but its entry in the log,
    and the run goes on to the build: the shell is called with [tsc] and
    starts it. *)
Theorem C6_absent_dist_tolerated w :
  exists_at (dist w) (fs w) = false ->
  rmtree "dist" true w = (Ok tt, logged (Call_rmtree "dist") w) /\
  exists rest,
    run_events exec w =
    Call_rmtree "dist" :: Call_system "tsc" :: Exec tsc_argv (cwd w) :: rest.
Proof.
  intros Habs. split.
  - rewrite rmtree_dist. unfold rmtree_at, exists_at in *.
    destruct (walk (dist w) (fs w)); [reflexivity | discriminate].
  - destruct (run_cases exec w) as [[w' H] | (e & w' & H)].
    + rewrite (run_events_returned _ _ _ H). eexists. reflexivity.
    + rewrite (run_events_raised _ _ _ _ H). eexists. reflexivity.
Qed.

(** C10.  The last statement hands the shell the one command line
    [cd dist/ && npm publish --access public].  When [dist] is not a
    directory at that time (when it does not exist, in particular), [cd]
    fails, the shell starts no program, and the file system is left as it
    was: the call returns the status of [cd] and adds only itself to the
    log. *)
Theorem C10_publish_needs_dist w :
  is_dir (dist w) (fs w) = false ->
  publish_cmd = "cd dist/ && npm publish --access public" /\
  os_system exec publish_cmd w =
    (Ok (Z.shiftl 2 8),
     {| fs := fs w; cwd := cwd w; log := log w ++ [Call_system publish_cmd] |}).
Proof.
  intros Hdir. split; [reflexivity |].
  now rewrite os_system_publish_refused.
Qed.

End Claims.

(** C4.  The exit status of the build is not looked at: with the status
    of [tsc] replaced by any [c], the run has the same result, the same
    file system and the same log; and after the build the run calls
    [copyfile]. *)
Theorem C4_build_status_ignored exec c w :
  snd (with_build_status exec c tsc_argv (cwd w)
         (fs (after_remove w))) = c /\
  main (with_build_status exec c) w = main exec w /\
  exists rest,
    run_events (with_build_status exec c) w =
    [Call_rmtree "dist"; Call_system "tsc"; Exec tsc_argv (cwd w);
     Call_copyfile "package.json" "dist/package.json"] ++ rest.
Proof.
  split; [reflexivity |]. split.
  - rewrite !main_eq.
    assert (C : copy_step (with_build_status exec c) w = copy_step exec w).
    { unfold copy_step. now rewrite !after_build_eq. }
    rewrite C. destruct (copy_step exec w) as [[s | e] w3]; reflexivity.
  - destruct (run_cases (with_build_status exec c) w) as [[w' H] | (e & w' & H)].
    + rewrite (run_events_returned _ _ _ H). eexists. reflexivity.
    + rewrite (run_events_raised _ _ _ _ H). exists []. reflexivity.
Qed.

(** The example run of the specification: the project of [Samples.project]
    has the manifest of the example; after the run [dist/package.json]
    holds the same bytes. *)
Example example_run :
  fst (main Samples.tools Samples.project) = Ok tt /\
  file_at ["proj"; "dist"; "package.json"]
    (fs (snd (main Samples.tools Samples.project))) = Some Samples.manifest_bytes /\
  file_at ["proj"; "package.json"]
    (fs (snd (main Samples.tools Samples.project))) = Some Samples.manifest_bytes.
Proof. repeat split; vm_compute; reflexivity. Qed.

(** C1 at the example project. *)
Lemma C1_witness :
  exists d,
    file_at (cwd Samples.project ++ ["package.json"])
      (fs (snd (main Samples.tools Samples.project))) = Some d /\
    file_at (cwd Samples.project ++ ["dist"; "package.json"])
      (fs (snd (main Samples.tools Samples.project))) = Some d.
Proof.
  apply (C1_manifest_copied Samples.tools Samples.project).
  - vm_compute. reflexivity.
  - apply SamplesFacts.tools_publish_keeps.
  - apply SamplesFacts.tools_publish_keeps.
Defined.

(** C9 at the example project, run twice. *)
Lemma C9_witness :
  exists d,
    file_at (cwd Samples.project ++ ["dist"; "package.json"])
      (fs (snd (main Samples.tools Samples.project))) = Some d /\
    file_at (cwd Samples.project ++ ["dist"; "package.json"])
      (fs (snd (main Samples.tools (snd (main Samples.tools Samples.project)))))
      = Some d.
Proof.
  apply (C9_copy_idempotent Samples.tools Samples.project).
  - vm_compute. reflexivity.
  - vm_compute. reflexivity.
  - apply (SamplesFacts.tools_tsc_keeps ["proj"] "package.json"). reflexivity.
  - apply SamplesFacts.tools_publish_keeps.
  - apply SamplesFacts.tools_publish_keeps.
Defined.

(** C3 at a project without manifest. *)
Lemma C3_witness :
  exists e w',
    copy_step Samples.tools Samples.project_no_manifest = (Raise e, w') /\
    main Samples.tools Samples.project_no_manifest = (Raise e, w') /\
    ~ In (Call_system publish_cmd)
        (run_events Samples.tools Samples.project_no_manifest) /\
    forall dir,
      ~ In (Exec publish_argv dir)
          (run_events Samples.tools Samples.project_no_manifest).
Proof.
  apply (C3_copy_failure_halts Samples.tools Samples.project_no_manifest).
  left. vm_compute. reflexivity.
Defined.

(** C6 at the example project, which has no [dist] yet. *)
Lemma C6_witness :
  rmtree "dist" true Samples.project =
    (Ok tt, logged (Call_rmtree "dist") Samples.project) /\
  exists rest,
    run_events Samples.tools Samples.project =
    Call_rmtree "dist" :: Call_system "tsc"
      :: Exec tsc_argv (cwd Samples.project) :: rest.
Proof.
  apply (C6_absent_dist_tolerated Samples.tools Samples.project).
  vm_compute. reflexivity.
Defined.

(** C10 at the example project before any build. *)
Lemma C10_witness :
  publish_cmd = "cd dist/ && npm publish --access public" /\
  os_system Samples.tools publish_cmd Samples.project =
    (Ok (Z.shiftl 2 8),
     {| fs := fs Samples.project;
        cwd := cwd Samples.project;
        log := log Samples.project ++ [Call_system publish_cmd] |}).
Proof.
  apply (C10_publish_needs_dist Samples.tools Samples.project).
  vm_compute. reflexivity.
Defined.

(** ** Claims that the code does not meet as they are stated *)

Section Amended.

Variable exec : list string -> path -> node -> node * Z.

(** C2, amended.  The statements run in the order of the script, each
    after the one before it has returned, and nothing that removal or
    build report selects among them; but a run makes all four calls only
    if the copy returns.  A run either returns, and has then called
    [rmtree], the shell for [tsc], [copyfile] and the shell for the publish
    command, in this order; or the copy raised, and the run ended there,
    after the first three. *)
Theorem C2_steps_in_order w :
  (exists w',
     main exec w = (Ok tt, w') /\
     run_events exec w =
       [Call_rmtree "dist";
        Call_system "tsc"; Exec tsc_argv (cwd w);
        Call_copyfile "package.json" "dist/package.json";
        Call_system publish_cmd; Exec publish_argv (cwd w ++ ["dist"])]) \/
  (exists e w',
     main exec w = (Raise e, w') /\
     copy_step exec w = (Raise e, w') /\
     run_events exec w =
       [Call_rmtree "dist";
        Call_system "tsc"; Exec tsc_argv (cwd w);
        Call_copyfile "package.json" "dist/package.json"]).
Proof.
  destruct (run_cases exec w) as [[w' H] | (e & w' & H)].
  - left. exists w'. split; [assumption |].
    now rewrite (run_events_returned _ _ _ H).
  - right. exists e, w'. split; [assumption |].
    split; [apply (run_raised _ _ _ _ H) |].
    now rewrite (run_events_raised _ _ _ _ H).
Qed.

(** C5, amended.  The removal step suppresses every error, does not exist
    and permission denied alike: it never raises, whatever the state of
    the output directory, and the run goes on to the build. *)
Theorem C5_removal_never_raises w :
  fst (rmtree "dist" true w) = Ok tt /\
  exists rest,
    run_events exec w =
    Call_rmtree "dist" :: Call_system "tsc" :: Exec tsc_argv (cwd w) :: rest.
Proof.
  split.
  - now rewrite rmtree_dist.
  - destruct (run_cases exec w) as [[w' H] | (e & w' & H)].
    + rewrite (run_events_returned _ _ _ H). eexists. reflexivity.
    + rewrite (run_events_raised _ _ _ _ H). eexists. reflexivity.
Qed.

(** C8, amended.  Once the copy has returned, whatever removal and build
    did, the last statement calls the shell once; the change of directory
    happens in that child shell, which starts the publish command with
    [--access public] in [dist]; the working directory of the driver is
    the same before and after. *)
Theorem C8_publish_in_child_shell w s w3 :
  copy_step exec w = (Ok s, w3) ->
  exists w',
    main exec w = (Ok tt, w') /\
    cwd w3 = cwd w /\
    cwd w' = cwd w /\
    fs w' = fst (exec ["npm"; "publish"; "--access"; "public"]
                   (cwd w ++ ["dist"]) (fs w3)) /\
    log w' = log w3 ++ [Call_system "cd dist/ && npm publish --access public";
                        Exec ["npm"; "publish"; "--access"; "public"]
                          (cwd w ++ ["dist"])].
Proof.
  intros C.
  assert (Hrun : main exec w = (Ok tt, snd (os_system exec publish_cmd w3))).
  { rewrite main_eq, C. reflexivity. }
  destruct (run_returned _ _ _ Hrun) as (d & f & _ & _ & _ & Hd & C' & E).
  rewrite C in C'. inversion C'; subst s w3. clear C'.
  exists (snd (os_system exec publish_cmd
                 (with_fs f (logged copy_call (after_build exec w))))).
  split; [assumption |].
  rewrite E. cbn [with_fs logged fs cwd log].
  rewrite after_build_eq. cbn [fs cwd log].
  repeat split. unfold publish_events, dist.
  now rewrite <- !app_assoc.
Qed.

End Amended.

(** C7, amended.  The copy step copies the manifest of the project root to
    [dist/package.json]: whenever it returns, the copy holds the bytes of
    the manifest, and the manifest is as it was.  It raises whenever the
    manifest is not a regular file (a missing one is not) or [dist] is not
    a directory (a missing one is not); these are not its only failures:
    it raises as well when [dist/package.json] is a directory. *)
Theorem C7_copy_step w :
  (is_file (manifest w) (fs w) = false \/
   is_dir (dist w) (fs w) = false \/
   is_dir (manifest_copy w) (fs w) = true ->
   exists e,
     copyfile "package.json" "dist/package.json" w = (Raise e, logged copy_call w))
  /\
  (forall s w3,
     copyfile "package.json" "dist/package.json" w = (Ok s, w3) ->
     s = "dist/package.json" /\
     exists d,
       file_at (cwd w ++ ["package.json"]) (fs w) = Some d /\
       file_at (cwd w ++ ["package.json"]) (fs w3) = Some d /\
       file_at (cwd w ++ ["dist"; "package.json"]) (fs w3) = Some d).
Proof.
  split.
  - intros H.
    assert (P : copy_possible w = false).
    { unfold copy_possible. revert H.
      rewrite manifest_copy_in_dist.
      unfold is_file, is_dir, exists_at. rewrite walk_app.
      destruct (walk (manifest w) (fs w)) as [e | [x | wm em]];
        destruct (walk (dist w) (fs w)) as [e' | [x' | wd es]];
        cbn [andb orb negb walk]; try reflexivity;
        try (intros [H | [H | H]]; discriminate H).
      destruct (find "package.json" es) as [[y | wy ey] |];
        cbn [andb orb negb]; try reflexivity;
        intros [H | [H | H]]; discriminate H. }
    pose proof (copyfile_outcome w) as O. rewrite P in O. exact O.
  - intros s w3 H.
    destruct (copyfile_returned _ _ _ H) as (d & H1 & H2 & H3 & _ & E).
    split; [| exists d; auto].
    pose proof (copyfile_outcome w) as O. destruct (copy_possible w).
    + destruct O as (d' & _ & O). rewrite O in H. now inversion H.
    + destruct O as (e & O). rewrite O in H. discriminate.
Qed.

(** C7, amended, where the copy raises (no manifest) and where it returns
    (the example project after its build). *)
Lemma C7_witness :
  (exists e,
     copyfile "package.json" "dist/package.json"
       (after_build Samples.tools Samples.project_no_manifest)
     = (Raise e,
        logged copy_call (after_build Samples.tools Samples.project_no_manifest)))
  /\
  ("dist/package.json" = "dist/package.json" /\
   exists d,
     file_at (cwd (after_build Samples.tools Samples.project) ++ ["package.json"])
       (fs (after_build Samples.tools Samples.project)) = Some d /\
     file_at (cwd (after_build Samples.tools Samples.project) ++ ["package.json"])
       (fs (snd (copy_step Samples.tools Samples.project))) = Some d /\
     file_at (cwd (after_build Samples.tools Samples.project)
                ++ ["dist"; "package.json"])
       (fs (snd (copy_step Samples.tools Samples.project))) = Some d).
Proof.
  split.
  - apply (proj1 (C7_copy_step
                    (after_build Samples.tools Samples.project_no_manifest))).
    left. vm_compute. reflexivity.
  - apply (proj2 (C7_copy_step (after_build Samples.tools Samples.project))
             "dist/package.json" (snd (copy_step Samples.tools Samples.project))).
    vm_compute. reflexivity.
Defined.

(** C2 as stated fails: in a project without a manifest the copy raises,
    and the run has made three of the four calls: the shell is never
    called for the publish command. *)
Lemma C2_counterexample :
  exists w',
    main Samples.tools Samples.project_no_manifest = (Raise FileNotFoundError, w') /\
    log w' = [Call_rmtree "dist";
              Call_system "tsc"; Exec ["tsc"] ["proj"];
              Call_copyfile "package.json" "dist/package.json"] /\
    ~ In (Call_system publish_cmd) (log w').
Proof.
  eexists. split; [vm_compute; reflexivity |]. split; [reflexivity |].
  cbn. intros [H | [H | [H | [H | []]]]]; discriminate.
Qed.

(** C5 as stated fails: with a former [dist] that may not be written, the
    removal meets permission denied (then directory not empty); a removal
    that is not told to ignore errors raises the first; the removal of
    the driver returns, [dist] is still there with its content, and the
    run goes on to the build. *)
Lemma C5_counterexample :
  snd (rmtree_at true (dist Samples.project_locked) (fs Samples.project_locked))
    = [PermissionError; DirectoryNotEmpty] /\
  fst (rmtree "dist" false Samples.project_locked) = Raise PermissionError /\
  fst (rmtree "dist" true Samples.project_locked) = Ok tt /\
  walk ["proj"; "dist"] (fs (snd (rmtree "dist" true Samples.project_locked)))
    = inr (Dir false [("index.js", File [])]) /\
  firstn 3 (run_events Samples.tools Samples.project_locked)
    = [Call_rmtree "dist"; Call_system "tsc"; Exec ["tsc"] ["proj"]].
Proof. repeat split; vm_compute; reflexivity. Qed.

(** C7 as stated fails: here the manifest is present and the build has
    created [dist], yet the copy raises, because the build has left a
    directory of the name [package.json] in [dist]. *)
Lemma C7_counterexample :
  is_file ["proj"; "package.json"]
    (fs (after_build Samples.tools_odd Samples.project)) = true /\
  is_dir ["proj"; "dist"] (fs (after_remove Samples.project)) = false /\
  is_dir ["proj"; "dist"]
    (fs (after_build Samples.tools_odd Samples.project)) = true /\
  fst (copy_step Samples.tools_odd Samples.project) = Raise IsADirectoryError.
Proof. repeat split; vm_compute; reflexivity. Qed.

(** C8 as stated fails: the publish command has been started in [dist],
    and the working directory of the driver is still the project root; and
    the publish call is gated on the copy, as a run without manifest never
    makes it. *)
Lemma C8_counterexample :
  In (Exec publish_argv ["proj"; "dist"])
     (log (snd (main Samples.tools Samples.project))) /\
  cwd (snd (main Samples.tools Samples.project)) = ["proj"] /\
  cwd (snd (main Samples.tools Samples.project)) <> ["proj"; "dist"] /\
  run_events Samples.tools Samples.project_no_manifest =
    [Call_rmtree "dist"; Call_system "tsc"; Exec ["tsc"] ["proj"];
     Call_copyfile "package.json" "dist/package.json"].
Proof.
  repeat split; try (vm_compute; reflexivity).
  - vm_compute. tauto.
  - vm_compute. discriminate.
Qed.

(** C8, amended, at the example project. *)
Lemma C8_witness :
  exists w',
    main Samples.tools Samples.project = (Ok tt, w') /\
    cwd (snd (copy_step Samples.tools Samples.project)) = cwd Samples.project /\
    cwd w' = cwd Samples.project /\
    fs w' = fst (Samples.tools ["npm"; "publish"; "--access"; "public"]
                   (cwd Samples.project ++ ["dist"])
                   (fs (snd (copy_step Samples.tools Samples.project)))) /\
    log w' = log (snd (copy_step Samples.tools Samples.project))
             ++ [Call_system "cd dist/ && npm publish --access public";
                 Exec ["npm"; "publish"; "--access"; "public"]
                   (cwd Samples.project ++ ["dist"])].
Proof.
  apply (C8_publish_in_child_shell Samples.tools Samples.project
           "dist/package.json").
  vm_compute. reflexivity.
Defined.

(** * Further properties of the code *)

Module Beyond.

Lemma rm_contents_dir ign w es :
  rm_contents ign (Dir w es) =
  (Dir w (fst (rm_entries ign w es)), snd (rm_entries ign w es)).
Proof.
  unfold rm_entries. cbn [rm_contents].
  match goal with |- context [match ?F es with pair _ _ => _ end] => destruct (F es) as [es' errs] end.
  reflexivity.
Qed.

Lemma rm_entries_nil ign w : rm_entries ign w [] = ([], []).
Proof. reflexivity. Qed.

Lemma rm_entries_cons ign w name c rest :
  rm_entries ign w ((name, c) :: rest) =
  let '(kept, errs) := rm_entry ign w name c in
  if stop ign errs then (kept ++ rest, errs)
  else let '(rest', errs') := rm_entries ign w rest in
       (kept ++ rest', errs ++ errs').
Proof.
  unfold rm_entries at 1. cbn [rm_contents].
  fold (rm_entry ign w name c).
  destruct (rm_entry ign w name c) as [kept errs].
  destruct (stop ign errs); [reflexivity |].
  unfold rm_entries. cbn [rm_contents].
  match goal with |- context [match ?F rest with pair _ _ => _ end] => destruct (F rest) as [es' errs'] end.
  reflexivity.
Qed.

(** Induction on trees, the entries of a directory included. *)
Section NodeInd.
Variable P : node -> Prop.
Hypothesis HF : forall d, P (File d).
Hypothesis HD : forall w es, Forall (fun e => P (snd e)) es -> P (Dir w es).

Fixpoint node_nested_ind (n : node) : P n :=
  match n with
  | File d => HF d
  | Dir w es =>
      HD w es
        ((fix all (l : list (string * node)) : Forall (fun e => P (snd e)) l :=
            match l with
            | [] => Forall_nil _
            | e :: l' => Forall_cons e (node_nested_ind (snd e)) (all l')
            end) es)
  end.
End NodeInd.


Lemma after_remove_eq w :
  after_remove w =
  {| fs := fst (rmtree_at true (dist w) (fs w));
     cwd := cwd w;
     log := log w ++ [Call_rmtree "dist"] |}.
Proof. unfold after_remove. now rewrite rmtree_dist. Qed.

(** X1.  The removal step touches nothing outside [dist]: a path that
    leaves the path of [dist] at some component leads to the same node
    before and after the step. *)
Theorem X1_removal_frame w a c1 r1 c2 r2 :
  dist w = a ++ c2 :: r2 ->
  String.eqb c1 c2 = false ->
  walk (a ++ c1 :: r1) (fs (after_remove w)) = walk (a ++ c1 :: r1) (fs w).
Proof.
  intros Hd Hne. rewrite after_remove_eq. cbn [fs].
  destruct (rmtree_at_shape true (dist w) (fs w)) as [-> | [v ->]];
    [reflexivity |].
  rewrite Hd. now apply walk_put_diverge.
Qed.


(** X4.  The copy step, whether it returns or raises, touches nothing but
    [dist/package.json]: a path that leaves that path at some component
    (the sources, the manifest of the project root, what the build wrote
    into [dist]) leads to the same node before and after. *)
Theorem X4_copy_frame w a c1 r1 c2 r2 :
  manifest_copy w = a ++ c2 :: r2 ->
  String.eqb c1 c2 = false ->
  walk (a ++ c1 :: r1)
    (fs (snd (copyfile "package.json" "dist/package.json" w)))
  = walk (a ++ c1 :: r1) (fs w).
Proof.
  intros Hp Hne. pose proof (copyfile_outcome w) as O.
  destruct (copy_possible w).
  - destruct O as (d & _ & ->). cbn [snd with_fs fs].
    rewrite Hp. now apply walk_put_diverge.
  - destruct O as (e & ->). reflexivity.
Qed.

(** X5.  A run returns without exception only if the copy is possible on
    the state the build leaves: the manifest a regular file, [dist] a
    directory, and [dist/package.json] a regular file, or absent with
    [dist] writable. *)
Theorem X5_run_returns_only_if exec w :
  fst (main exec w) = Ok tt -> copy_possible (after_build exec w) = true.
Proof.
  rewrite main_eq. unfold copy_step.
  pose proof (copyfile_outcome (after_build exec w)) as O.
  destruct (copy_possible (after_build exec w)); [reflexivity |].
  destruct O as (e & ->). discriminate.
Qed.

(** X6.  No run changes the working directory of the driver, whether it
    returns or raises. *)
Theorem X6_cwd_unchanged exec w : cwd (snd (main exec w)) = cwd w.
Proof.
  destruct (run_cases exec w) as [[w' H] | (e & w' & H)]; rewrite H; cbn [snd].
  - destruct (run_returned _ _ _ H) as (d & f & _ & _ & _ & _ & _ & ->).
    reflexivity.
  - destruct (run_raised _ _ _ _ H) as (_ & ->). reflexivity.
Qed.

(** X7.  The exit status of the publish command is not looked at either:
    with that status replaced by any [c], result, file system and log of
    the run are the same. *)
Theorem X7_publish_status_ignored exec c w :
  main (with_publish_status exec c) w = main exec w.
Proof.
  rewrite !main_eq.
  assert (C : copy_step (with_publish_status exec c) w = copy_step exec w).
  { unfold copy_step. now rewrite !after_build_eq. }
  rewrite C. destruct (copy_step exec w) as [[s | e] w3]; [| reflexivity].
  f_equal. destruct (is_dir (dist w3) (fs w3)) eqn:D.
  - now rewrite !os_system_publish_entered.
  - now rewrite !os_system_publish_refused.
Qed.

Lemma find_some_name c es n :
  find c es = Some n -> existsb (String.eqb c) (map fst es) = true.
Proof.
  induction es as [| [k m] es IH]; [discriminate |].
  cbn [find map fst existsb]. destruct (String.eqb c k); auto.
Qed.

Lemma find_some_in c es n : find c es = Some n -> In (c, n) es.
Proof.
  induction es as [| [k m] es IH]; [discriminate |].
  cbn [find]. destruct (String.eqb c k) eqn:E.
  - apply String.eqb_eq in E. subst k. inversion 1. now left.
  - intros H. right. auto.
Qed.

Lemma walk_names_unique p root n :
  walk p root = inr n -> names_unique root = true -> names_unique n = true.
Proof.
  revert root. induction p as [| c p IH]; intros root H U.
  - inversion H. now subst.
  - cbn [walk] in H. destruct root as [d | w es]; [discriminate |].
    destruct (find c es) as [m |] eqn:F; [| discriminate].
    apply (IH m H). cbn [names_unique] in U.
    apply andb_prop in U as [_ U]. rewrite forallb_forall in U.
    apply (U (c, m)). now apply find_some_in.
Qed.

Lemma rm_entry_kept ign w name c :
  fst (rm_entry ign w name c) = [] \/
  fst (rm_entry ign w name c) = [(name, c)] \/
  fst (rm_entry ign w name c) = [(name, fst (rm_contents ign c))].
Proof.
  unfold rm_entry. destruct c as [d | w' es'].
  - destruct w; auto.
  - destruct (rm_contents ign (Dir w' es')) as [c' e]. cbn [fst].
    destruct (stop ign e); auto.
    destruct (rmdir_check w c'); auto.
Qed.

Lemma rm_entries_find ign w es c n' :
  uniq (map fst es) = true ->
  find c (fst (rm_entries ign w es)) = Some n' ->
  exists n, find c es = Some n /\ (n' = n \/ n' = fst (rm_contents ign n)).
Proof.
  induction es as [| [name ch] rest IH]; intros U F.
  - discriminate.
  - cbn [map fst uniq] in U. apply andb_prop in U as [Un Ur].
    rewrite rm_entries_cons in F.
    pose proof (rm_entry_kept ign w name ch) as K.
    destruct (rm_entry ign w name ch) as [kept errs]. cbn [fst] in K.
    assert (R : find c (kept ++ rest) = Some n' \/
                find c (kept ++ fst (rm_entries ign w rest)) = Some n').
    { destruct (stop ign errs); [now left |].
      destruct (rm_entries ign w rest) as [rest' errs']. now right. }
    clear F. cbn [find]. destruct (String.eqb c name) eqn:E.
    + apply String.eqb_eq in E. subst c. exists ch. split; [reflexivity |].
      destruct K as [-> | [-> | ->]]; cbn [app find] in R;
        rewrite ?String.eqb_refl in R.
      * exfalso. destruct R as [R | R].
        -- apply find_some_name in R. rewrite R in Un. discriminate.
        -- destruct (IH Ur R) as (n & Fn & _).
           apply find_some_name in Fn. rewrite Fn in Un. discriminate.
      * left. destruct R as [R | R]; now inversion R.
      * right. destruct R as [R | R]; now inversion R.
    + assert (R' : find c rest = Some n' \/
                   find c (fst (rm_entries ign w rest)) = Some n').
      { destruct K as [-> | [-> | ->]]; cbn [app find] in R;
          rewrite ?E in R; exact R. }
      destruct R' as [R' | R'].
      * exists n'. auto.
      * apply (IH Ur R').
Qed.

Lemma rm_contents_only_removes n :
  names_unique n = true ->
  forall ign r d,
    file_at r (fst (rm_contents ign n)) = Some d -> file_at r n = Some d.
Proof.
  induction n as [d0 | w es IH] using node_nested_ind; intros U ign r d.
  - cbn [rm_contents fst]. auto.
  - rewrite rm_contents_dir. cbn [fst]. cbn [names_unique] in U.
    apply andb_prop in U as [Un Uc].
    destruct r as [| c r]; [discriminate |].
    unfold file_at. cbn [walk].
    destruct (find c (fst (rm_entries ign w es))) as [n' |] eqn:F;
      [| discriminate].
    destruct (rm_entries_find _ _ _ _ _ Un F) as (n & Fn & Hn).
    rewrite Fn. destruct Hn as [-> | ->]; [auto |].
    apply find_some_in in Fn. rewrite Forall_forall in IH.
    rewrite forallb_forall in Uc.
    apply (IH (c, n) Fn (Uc (c, n) Fn) ign r d).
Qed.

Lemma path_cases (q p : path) :
  (exists r, q = p ++ r) \/
  (exists c r, p = q ++ c :: r) \/
  (exists a c1 r1 c2 r2,
     q = a ++ c1 :: r1 /\ p = a ++ c2 :: r2 /\ String.eqb c1 c2 = false).
Proof.
  revert p. induction q as [| x q IH]; intros p.
  - destruct p as [| y p]; [left; now exists [] | right; left; now exists y, p].
  - destruct p as [| y p]; [left; now exists (x :: q) |].
    destruct (String.eqb x y) eqn:E.
    + apply String.eqb_eq in E. subst y.
      destruct (IH p) as [[r ->] | [(c & r & ->) | (a & c1 & r1 & c2 & r2 & -> & -> & N)]].
      * left. now exists r.
      * right. left. now exists c, r.
      * right. right. now exists (x :: a), c1, r1, c2, r2.
    + right. right. now exists [], x, q, y, p.
Qed.

Lemma walk_put_at p n' root n :
  walk p root = inr n ->
  forall r, walk (p ++ r) (put p (Some n') root) = walk r n'.
Proof.
  revert root. induction p as [| c p IH]; intros root H r; [reflexivity |].
  cbn [walk] in H. destruct root as [d | w es]; [discriminate |].
  destruct (find c es) as [m |] eqn:F; [| discriminate].
  change ((c :: p) ++ r) with (c :: (p ++ r)).
  destruct p as [| c' p'].
  - cbn [put walk app]. now rewrite find_set_entry_same.
  - rewrite put_below by discriminate. rewrite F. cbn [walk].
    rewrite find_set_entry_same. now apply IH.
Qed.

Lemma walk_put_gone p root n :
  p <> [] ->
  walk p root = inr n ->
  forall r, walk (p ++ r) (put p None root) = inl FileNotFoundError.
Proof.
  revert root. induction p as [| c p IH]; intros root Hp H r; [congruence |].
  cbn [walk] in H. destruct root as [d | w es]; [discriminate |].
  destruct (find c es) as [m |] eqn:F; [| discriminate].
  change ((c :: p) ++ r) with (c :: (p ++ r)).
  destruct p as [| c' p'].
  - cbn [put walk app]. now rewrite find_set_entry_same.
  - rewrite put_below by discriminate. rewrite F. cbn [walk].
    rewrite find_set_entry_same. apply IH; [discriminate | assumption].
Qed.

Lemma walk_put_above q c r v root n :
  walk (q ++ c :: r) root = inr n ->
  file_at q (put (q ++ c :: r) v root) = None.
Proof.
  revert root. induction q as [| x q IH]; intros root H.
  - cbn [app] in *. cbn [walk] in H.
    destruct root as [d | w es]; [discriminate |].
    unfold file_at. destruct r.
    + reflexivity.
    + rewrite put_below by discriminate. now destruct (find c es).
  - change ((x :: q) ++ c :: r) with (x :: (q ++ c :: r)) in *.
    cbn [walk] in H. destruct root as [d | w es]; [discriminate |].
    destruct (find x es) as [m |] eqn:F; [| discriminate].
    rewrite put_below by apply snoc_not_nil. rewrite F.
    unfold file_at. cbn [walk]. rewrite find_set_entry_same.
    apply (IH m H).
Qed.

Lemma rmtree_at_only_removes ign p root q d :
  names_unique root = true ->
  file_at q (fst (rmtree_at ign p root)) = Some d ->
  file_at q root = Some d.
Proof.
  intros U. unfold rmtree_at.
  destruct (walk p root) as [e | n] eqn:W; [auto |].
  pose proof (rm_contents_only_removes n (walk_names_unique _ _ _ W U) ign) as R.
  destruct (rm_contents ign n) as [n' errs]. cbn [fst] in R.
  assert (Some_case :
    file_at q (put p (Some n') root) = Some d -> file_at q root = Some d).
  { destruct (path_cases q p)
      as [[r ->] | [(c & r & ->) | (a & c1 & r1 & c2 & r2 & -> & -> & N)]].
    - unfold file_at at 1. rewrite (walk_put_at _ _ _ _ W). intros H.
      apply R in H. unfold file_at in *. now rewrite walk_app, W.
    - now rewrite (walk_put_above _ _ _ _ _ _ W).
    - unfold file_at. now rewrite walk_put_diverge. }
  destruct (stop ign errs); [exact Some_case |].
  destruct (rmdir_check _ n'); [exact Some_case |]. cbn [fst].
  destruct (path_cases q p)
    as [[r ->] | [(c & r & ->) | (a & c1 & r1 & c2 & r2 & -> & -> & N)]].
  - destruct p as [| c p]; [auto |].
    unfold file_at at 1. rewrite (walk_put_gone (c :: p) root n ltac:(discriminate) W).
    discriminate.
  - now rewrite (walk_put_above _ _ _ _ _ _ W).
  - unfold file_at. now rewrite walk_put_diverge.
Qed.

(** X3.  The removal step only removes: on a file system whose
    directories have no two entries of one name, a regular file that is
    there after the step was there before it, with the same bytes. *)
Theorem X3_removal_only_removes w q d :
  names_unique (fs w) = true ->
  file_at q (fs (after_remove w)) = Some d ->
  file_at q (fs w) = Some d.
Proof.
  intros U. rewrite after_remove_eq. cbn [fs].
  now apply rmtree_at_only_removes.
Qed.

(** X8.  The exception of a run without manifest, or with a manifest but
    without [dist] after the build, is [FileNotFoundError] (the working
    directory being a directory). *)
Theorem X8_missing_file_error exec w :
  is_dir (cwd w) (fs (after_build exec w)) = true ->
  exists_at (manifest w) (fs (after_build exec w)) = false \/
  (is_file (manifest w) (fs (after_build exec w)) = true /\
   exists_at (dist w) (fs (after_build exec w)) = false) ->
  fst (main exec w) = Raise FileNotFoundError.
Proof.
  intros Hcwd H. rewrite main_eq. unfold copy_step.
  rewrite copyfile_manifest.
  assert (E : cwd (after_build exec w) = cwd w) by now rewrite after_build_eq.
  rewrite manifest_copy_in_dist.
  unfold manifest at 1, dist at 1. rewrite E.
  unfold is_dir, exists_at, is_file, manifest, dist, read_file in *.
  rewrite !walk_app in H. rewrite walk_app.
  destruct (walk (cwd w) (fs (after_build exec w))) as [e | [x | wc es]] eqn:Wc;
    try discriminate.
  cbn [walk] in *.
  destruct H as [H | [Hm Hd]].
  - destruct (find "package.json" es); [discriminate | reflexivity].
  - destruct (find "package.json" es) as [[x | wm em] |]; try discriminate.
    rewrite write_file_snoc, walk_app, Wc. cbn [walk].
    destruct (find "dist" es); [discriminate | reflexivity].
Qed.

Lemma rm_contents_errors_iff n :
  snd (rm_contents true n) = [] <-> emptied (fst (rm_contents true n)) = true.
Proof.
  induction n as [d | w es IH] using node_nested_ind.
  - cbn. split; discriminate.
  - rewrite rm_contents_dir. cbn [fst snd emptied].
    assert (E : snd (rm_entries true w es) = [] <->
                fst (rm_entries true w es) = []).
    { induction es as [| [name c] rest IHrest]; [now split |].
      inversion IH as [| x l Pc Prest]; subst. cbn [snd] in Pc.
      specialize (IHrest Prest). rewrite rm_entries_cons.
      assert (K : snd (rm_entry true w name c) = [] <->
                  fst (rm_entry true w name c) = []).
      { unfold rm_entry. destruct c as [d | w' es'].
        - destruct w; cbn; split; congruence.
        - destruct (rm_contents true (Dir w' es')) as [c' e] eqn:R.
          cbn [fst snd] in Pc.
          replace (stop true e) with false by now destruct e.
          destruct c' as [d | w2 es2].
          + cbn. split; [intros H; now destruct e | discriminate].
          + unfold rmdir_check. destruct w; cbn [negb].
            * destruct es2; cbn [fst snd emptied] in *.
              -- split; [reflexivity | intros _; now apply Pc].
              -- split; [intros H; now destruct e | discriminate].
            * cbn. split; [intros H; now destruct e | discriminate]. }
      destruct (rm_entry true w name c) as [kept errs]. cbn [fst snd] in K.
      replace (stop true errs) with false by now destruct errs.
      destruct (rm_entries true w rest) as [rest' errs']. cbn [fst snd] in *.
      split; intros H.
      - apply app_eq_nil in H as [H1 H2].
        apply K in H1. apply IHrest in H2. now subst.
      - apply app_eq_nil in H as [H1 H2].
        apply K in H1. apply IHrest in H2. now subst. }
    rewrite E. destruct (fst (rm_entries true w es)); split; congruence.
Qed.

(** X10.  With a [dist] in place, the removal step leaves nothing at
    [dist] exactly when its error handler saw no error: a suppressed error
    always shows as a [dist] that is still there. *)
Theorem X10_removed_iff_no_error w :
  exists_at (dist w) (fs w) = true ->
  (exists_at (dist w) (fs (after_remove w)) = false <->
   snd (rmtree_at true (dist w) (fs w)) = []).
Proof.
  unfold exists_at at 1. intros Hex. rewrite after_remove_eq. cbn [fs].
  unfold rmtree_at.
  destruct (walk (dist w) (fs w)) as [e | n] eqn:W; [discriminate |].
  pose proof (rm_contents_errors_iff n) as R.
  destruct (rm_contents true n) as [n' errs]. cbn [fst snd] in R.
  replace (stop true errs) with false by now destruct errs.
  destruct (rmdir_check (dir_writable (removelast (dist w)) (fs w)) n')
    as [x |] eqn:C; cbn [fst snd].
  - unfold exists_at.
    pose proof (walk_put_at _ n' _ _ W []) as P. rewrite app_nil_r in P.
    rewrite P. cbn [walk]. split; [discriminate | intros H; now destruct errs].
  - unfold exists_at.
    pose proof (walk_put_gone (dist w) (fs w) n) as G.
    assert (N : dist w <> []) by (unfold dist; apply snoc_not_nil).
    specialize (G N W []). rewrite app_nil_r in G. rewrite G.
    split; [intros _ | reflexivity].
    apply R. unfold rmdir_check in C. destruct n' as [d | w' es']; [discriminate |].
    destruct (negb _); [discriminate |]. destruct es'; [reflexivity | discriminate].
Qed.

(** ** The properties with a precondition, at sample inputs *)

(** X1 for the manifest of a project built before. *)
Lemma X1_witness :
  walk (["proj"] ++ "package.json" :: [])
    (fs (after_remove Samples.project_stale))
  = walk (["proj"] ++ "package.json" :: []) (fs Samples.project_stale).
Proof.
  apply (X1_removal_frame Samples.project_stale ["proj"] "package.json" []
           "dist" []); reflexivity.
Defined.


(** X3 for the file that survives in a [dist] that may not be written. *)
Lemma X3_witness :
  file_at ["proj"; "dist"; "index.js"] (fs Samples.project_locked) = Some [].
Proof.
  apply (X3_removal_only_removes Samples.project_locked); vm_compute; reflexivity.
Defined.

(** X4 for the output of the build. *)
Lemma X4_witness :
  walk (["proj"; "dist"] ++ "index.js" :: [])
    (fs (snd (copyfile "package.json" "dist/package.json"
                (after_build Samples.tools Samples.project))))
  = walk (["proj"; "dist"] ++ "index.js" :: [])
      (fs (after_build Samples.tools Samples.project)).
Proof.
  apply (X4_copy_frame (after_build Samples.tools Samples.project)
           ["proj"; "dist"] "index.js" [] "package.json" []); reflexivity.
Defined.

(** X5 for the example project. *)
Lemma X5_witness :
  copy_possible (after_build Samples.tools Samples.project) = true.
Proof.
  apply (X5_run_returns_only_if Samples.tools Samples.project).
  vm_compute. reflexivity.
Defined.

(** X8 for a project without manifest. *)
Lemma X8_witness :
  fst (main Samples.tools Samples.project_no_manifest) = Raise FileNotFoundError.
Proof.
  apply (X8_missing_file_error Samples.tools Samples.project_no_manifest).
  - vm_compute. reflexivity.
  - left. vm_compute. reflexivity.
Defined.

(** X10 for a [dist] that may not be written. *)
Lemma X10_witness :
  exists_at (dist Samples.project_locked)
    (fs (after_remove Samples.project_locked)) = false <->
  snd (rmtree_at true (dist Samples.project_locked)
         (fs Samples.project_locked)) = [].
Proof.
  apply (X10_removed_iff_no_error Samples.project_locked).
  vm_compute. reflexivity.
Defined.

End Beyond.
